(** * Face clustering pipeline: a shallow embedding of the Python sources

  The development follows the four source files:
  - [cluster_generator.py]  (module [cluster_generator])
  - [face_extractor.py]     (module [face_extractor])
  - [process.py]            (module [process])
  - [execute.py]            (module [execute])

  Conventions.
  - Python [dict]s with hashable keys are [gmap]s; Python lists and the
    rows of a numpy array are [list]s.
  - Python [float]s are only stored, copied and compared with [<] by the
    modelled code; they are represented by canonical rationals [Qc].
  - Python [int]s are [Z]; [str(n)] on an [int] is stdpp's [pretty].
  - Code that raises runs in the monad [M]: a computation takes the log of
    external calls made so far and returns either a value or the raised
    exception, together with the extended log.
  - The libraries (scikit-learn, OpenCV, insightface, the file system) are
    not part of the repository; they enter as section variables.
  - Console output ([print]) is not modelled. *)

From Stdlib Require Import QArith Qcanon Ascii.
From stdpp Require Import gmap strings list fin_maps pretty.

Local Open Scope string_scope.
Local Open Scope Z_scope.

(** ** Python runtime: values, exceptions, the effect monad *)
Module Py.

(** Exceptions raised by the modelled code or by a library. *)
Inductive exn : Type :=
| ValueError (msg : string)
| ImportError (msg : string)
| IndexError (msg : string)
| KeyError (key : string)
| TypeError (msg : string)
| AttributeError (msg : string)
| OSError (msg : string)
| SystemExit.

(** [str(e)] for an exception, as used by the service's error payload. *)
Definition str_exn (e : exn) : string :=
  match e with
  | ValueError m | ImportError m | IndexError m | TypeError m
  | AttributeError m | OSError m => m
  | KeyError k => "'" +:+ k +:+ "'"
  | SystemExit => ""
  end.

Inductive result (A : Type) : Type :=
| Ok (a : A)
| Raise (e : exn).
Arguments Ok {A} a.
Arguments Raise {A} e.

#[global] Instance result_ret : MRet result := @Ok.
#[global] Instance result_bind : MBind result := λ A B f r,
  match r with Ok a => f a | Raise e => Raise e end.

(** Images are symbolic: a decoded file, or a copy with a rectangle
    drawn on it by [cv2.rectangle]. *)
Inductive image : Type :=
| Decoded (file : string)
| Rectangle (img : image) (pt1 pt2 : Z * Z) (color : Z * Z * Z) (thickness : Z).

(** The values a face dictionary holds. *)
Inductive pyval : Type :=
| VStr (s : string)
| VFloat (q : Qc)
| VIntList (l : list Z)
| VFloatList (l : list Qc)
| VPointList (l : list (Qc * Qc))
| VIntArray (l : list Z)
| VVector (l : list Qc)
| VPoints (l : list (Qc * Qc))
| VImage (img : image)
| VPixelList (img : image).

(** Hashable values; the keys of [embeddings_dict] and the members of a
    cluster. Strings and floats are hashable, lists and arrays are not. *)
Definition ident : Type := string + Qc.

Definition hashable (v : pyval) : result ident :=
  match v with
  | VStr s => Ok (inl s)
  | VFloat q => Ok (inr q)
  | VIntList _ | VFloatList _ | VPointList _ | VPixelList _ =>
      Raise (TypeError "unhashable type: 'list'")
  | VIntArray _ | VPoints _ | VVector _ | VImage _ =>
      Raise (TypeError "unhashable type: 'numpy.ndarray'")
  end.

(** [a.tolist()] on a numpy array. *)
Definition tolist (v : pyval) : result pyval :=
  match v with
  | VIntArray l => Ok (VIntList l)
  | VVector l => Ok (VFloatList l)
  | VPoints l => Ok (VPointList l)
  | VImage img => Ok (VPixelList img)
  | VStr _ => Raise (AttributeError "'str' object has no attribute 'tolist'")
  | VFloat _ => Raise (AttributeError "'float' object has no attribute 'tolist'")
  | VIntList _ | VFloatList _ | VPointList _ | VPixelList _ =>
      Raise (AttributeError "'list' object has no attribute 'tolist'")
  end.

(** [d[k]] on a dictionary with string keys. *)
Definition getitem {V} (d : gmap string V) (k : string) : result V :=
  match d !! k with
  | Some v => Ok v
  | None => Raise (KeyError k)
  end.

(** [a[i]] on a numpy array along axis 0, for an index [i >= 0]. *)
Definition index {A} (a : list A) (i : nat) : result A :=
  match a !! i with
  | Some x => Ok x
  | None =>
      Raise (IndexError ("index " +:+ pretty i +:+
                         " is out of bounds for axis 0 with size " +:+
                         pretty (length a)))
  end.

(** A scikit-learn estimator as constructed by [fit_predict]. *)
Inductive estimator : Type :=
| DBSCAN (eps : Qc) (min_samples : Z) (metric : string)
| HDBSCAN (min_cluster_size : Z) (metric : string).

(** The log of calls that leave the program. *)
Inductive event : Type :=
| EvFit (clustering : estimator) (X : list (list Qc))
| EvMakedirs (path : string)
| EvSave (path : string)
| EvImwrite (path : string) (img : pyval).

Definition M (A : Type) : Type := list event → result A * list event.

#[global] Instance M_ret : MRet M := λ A a log, (Ok a, log).
#[global] Instance M_bind : MBind M := λ A B f m log,
  match m log with
  | (Ok a, log') => f a log'
  | (Raise e, log') => (Raise e, log')
  end.

Definition raise {A} (e : exn) : M A := λ log, (Raise e, log).
Definition lift {A} (r : result A) : M A := λ log, (r, log).
Definition emit (ev : event) : M () := λ log, (Ok (), (log ++ [ev])%list).

(** [try: body except Exception as e: handler(e)]. [SystemExit] is not an
    [Exception] and passes through. *)
Definition try_except {A} (body : M A) (handler : exn → M A) : M A := λ log,
  match body log with
  | (Ok a, log') => (Ok a, log')
  | (Raise SystemExit, log') => (Raise SystemExit, log')
  | (Raise e, log') => handler e log'
  end.

(** One row of [np.array([...])]. The callers stack the float vectors
    stored under ['embedding']; integer sequences are converted, and any
    other value is outside the two-dimensional float arrays of the model
    and is rejected. *)
Definition as_row (v : pyval) : result (list Qc) :=
  match v with
  | VVector l | VFloatList l => Ok l
  | VIntArray l | VIntList l => Ok ((λ z, Q2Qc (inject_Z z)) <$> l)
  | _ => Raise (TypeError "not a two-dimensional float array")
  end.

(** [np.array(values)] on a list of vectors (NumPy 1.24 and later): a
    two-dimensional array when the rows have one length, [ValueError] for
    a ragged list. *)
Definition np_array (values : list pyval) : result (list (list Qc)) :=
  rows ← mapM as_row values;
  match rows with
  | [] => Ok []
  | r :: _ =>
      if bool_decide (Forall (λ r', length r' = length r) rows) then Ok rows
      else Raise (ValueError
        "setting an array element with a sequence. The requested array has an inhomogeneous shape after 1 dimensions.")
  end.

(** [os.path.join(a, b)] and [os.path.basename(p)] of [posixpath]. *)
Definition startswith (s pre : string) : bool := String.prefix pre s.

Definition endswith (s suf : string) : bool :=
  bool_decide (String.length suf ≤ String.length s)%nat &&
  String.eqb
    (String.substring (String.length s - String.length suf)
                      (String.length suf) s) suf.

Definition os_path_join (a b : string) : string :=
  if startswith b "/" then b
  else if String.eqb a "" || endswith a "/" then a +:+ b
  else a +:+ "/" +:+ b.

Fixpoint os_path_basename (p : string) : string :=
  match p with
  | EmptyString => EmptyString
  | String c rest =>
      if existsb (Ascii.eqb "/"%char) (String.list_ascii_of_string rest) || Ascii.eqb c "/"%char
      then os_path_basename rest
      else p
  end.

(** [s.lower()] on the ASCII letters. *)
Definition ascii_lower (c : ascii) : ascii :=
  let n := Ascii.nat_of_ascii c in
  if bool_decide (65 ≤ n ≤ 90)%nat then Ascii.ascii_of_nat (n + 32) else c.

Definition lower (s : string) : string :=
  String.string_of_list_ascii (ascii_lower <$> String.list_ascii_of_string s).

(** Run a computation from the empty log. *)
Definition run {A} (m : M A) : result A * list event := m [].

End Py.
Import Py.

(** ** cluster_generator.py *)
Module cluster_generator.

Record ClusterGenerator : Type := {
  algorithm : string;
  eps : Qc;
  min_samples : Z;
  metric : string
}.

(** [__init__] with its keyword defaults filled in by the caller. *)
Definition init (algorithm : string) (eps : Qc) (min_samples : Z)
    (metric : string) : ClusterGenerator :=
  {| algorithm := algorithm; eps := eps;
     min_samples := min_samples; metric := metric |}.

(** The value stored in the returned dictionary under each key. *)
Inductive field : Type :=
| FBool (b : bool)
| FClusters (clusters : gmap string (list ident))
| FEmbeddings (embeddings_dict : gmap ident (list Qc)).

(** The Label Resolver, line 46:
    [f"person_{label}" if label != -1 else "noise"]. *)
Definition cluster_name (label : Z) : string :=
  if bool_decide (label ≠ -1) then "person_" +:+ pretty label else "noise".

(** One iteration of the loop body at lines 47-49. *)
Definition add_member (name : string) (path : ident)
    (clusters : gmap string (list ident)) : gmap string (list ident) :=
  let clusters :=
    if bool_decide (name ∉ dom clusters) then <[name := []]> clusters
    else clusters in
  alter (λ members, (members ++ [path])%list) name clusters.

(** The loop of lines 40-49, from position [i] on. *)
Fixpoint assemble (path_key : string) (labels : list Z)
    (embeddings : list (list Qc)) (i : nat) (faces : list (gmap string pyval))
    (clusters : gmap string (list ident))
    (embeddings_dict : gmap ident (list Qc))
  : result (gmap string (list ident) * gmap ident (list Qc)) :=
  match faces with
  | [] => Ok (clusters, embeddings_dict)
  | face :: faces' =>
      path ← getitem face path_key;
      label ← index labels i;
      embedding ← index embeddings i;
      path ← hashable path;
      let embeddings_dict := <[path := embedding]> embeddings_dict in
      let clusters := add_member (cluster_name label) path clusters in
      assemble path_key labels embeddings (S i) faces' clusters embeddings_dict
  end.

Section with_sklearn.
(** [clustering.fit_predict(embeddings)] of scikit-learn: labels, or
    the exception it raises. *)
Context (sk_fit_predict : estimator → list (list Qc) → result (list Z)).

Definition estimator_fit_predict (clustering : estimator)
    (X : list (list Qc)) : M (list Z) :=
  _ ← emit (EvFit clustering X);
  lift (sk_fit_predict clustering X).

Definition fit_predict (self : ClusterGenerator)
    (embeddings : list (list Qc)) : M (list Z) :=
  clustering ←
    (if bool_decide (algorithm self = "dbscan") then
       mret (DBSCAN (eps self) (min_samples self) (metric self))
     else if bool_decide (algorithm self = "hdbscan") then
       mret (HDBSCAN (min_samples self) (metric self))
     else
       raise (ValueError ("Неизвестный алгоритм: " +:+ algorithm self)));
  estimator_fit_predict clustering embeddings.

Definition generate_clusters (self : ClusterGenerator)
    (faces : list (gmap string pyval)) (embeddings : list (list Qc))
    (path_key : string) : M (gmap string field) :=
  labels ← fit_predict self embeddings;
  '(clusters, embeddings_dict) ←
    lift (assemble path_key labels embeddings 0 faces ∅ ∅);
  mret (<["success" := FBool true]>
        (<["clusters" := FClusters clusters]>
         (<["embeddings" := FEmbeddings embeddings_dict]> ∅))).

End with_sklearn.

End cluster_generator.

(** ** face_extractor.py *)
Module face_extractor.

(** A detection as returned by insightface's [FaceAnalysis.get]. *)
Record Face : Type := {
  det_score : Qc;
  bbox : Qc * Qc * Qc * Qc;
  kps : list (Qc * Qc);
  normed_embedding : list Qc
}.

(** [x.astype(int)] on a float: truncation towards zero. *)
Definition astype_int (q : Qc) : Z := Z.quot (Qnum q) (Zpos (Qden q)).

(** numpy [int64] arithmetic wraps around. *)
Definition int64 (z : Z) : Z := (z + 2 ^ 63) `mod` 2 ^ 64 - 2 ^ 63.

(** The dictionary yielded for one accepted detection (lines 34-41). *)
Definition face_dict (image_path : string) (img : image) (face : Face)
    (bbox : Z * Z * Z * Z) : gmap string pyval :=
  let '(x1, y1, x2, y2) := bbox in
  let boxed_img := Rectangle img (x1, y1) (x2, y2) (255, 176, 0) 4 in
  list_to_map [
    ("bbox", VIntArray [x1; y1; x2; y2]);
    ("kps", VPoints (kps face));
    ("det_score", VFloat (det_score face));
    ("embedding", VVector (normed_embedding face));
    ("boxed_image", VImage boxed_img);
    ("original_image_path", VStr image_path)
  ].

(** The body of the loop over detections (lines 20-41): [None] for a
    detection that is skipped by [continue]. *)
Definition accept_face (image_path : string) (img : image) (min_size : Z)
    (det_thresh : Qc) (face : Face) : option (gmap string pyval) :=
  if bool_decide (det_score face < det_thresh)%Qc then None
  else
    let '(b0, b1, b2, b3) := bbox face in
    let bbox := (astype_int b0, astype_int b1, astype_int b2, astype_int b3) in
    let w := int64 (astype_int b2 - astype_int b0) in
    let h := int64 (astype_int b3 - astype_int b1) in
    if bool_decide (w < min_size) || bool_decide (h < min_size) then None
    else Some (face_dict image_path img face bbox).

Section with_detector.
(** [cv2.imread]: the decoded image, or [None] when the file cannot be
    loaded; [self.app.get]: the detections on an image; [os.listdir]. *)
Context (cv2_imread : string → option image).
Context (app_get : image → list Face).
Context (os_listdir : string → result (list string)).

(** The generator, as the list of what it yields. *)
Definition extract_faces_from_image_path (image_path : string)
    (min_size : Z) (det_thresh : Qc) : list (gmap string pyval) :=
  match cv2_imread image_path with
  | None => []
  | Some img =>
      omap (accept_face image_path img min_size det_thresh) (app_get img)
  end.

Definition is_image_file (filename : string) : bool :=
  let name := lower filename in
  endswith name ".jpg" || endswith name ".jpeg" || endswith name ".png".

Definition extract_faces_from_folder (folder_path : string)
    (min_size : Z) (det_thresh : Qc) : result (list (gmap string pyval)) :=
  filenames ← os_listdir folder_path;
  let image_paths :=
    os_path_join folder_path <$> filter (λ f, is_image_file f = true) filenames in
  mret (image_paths ≫=
          (λ image_path,
             extract_faces_from_image_path image_path min_size det_thresh)).

End with_detector.

End face_extractor.

(** ** process.py *)
Module process.

(** The values of the JSON payload handed to [jsonify]. *)
Inductive jval : Type :=
| JBool (b : bool)
| JInt (n : Z)
| JStr (s : string)
| JField (f : cluster_generator.field)
| JMeta (m : gmap ident (gmap string pyval)).

(** [d.keys()] on a value of the clustering result. *)
Definition keys (f : cluster_generator.field) : result (list ident) :=
  match f with
  | cluster_generator.FClusters c => Ok (inl <$> (map_to_list c).*1)
  | cluster_generator.FEmbeddings d => Ok ((map_to_list d).*1)
  | cluster_generator.FBool _ =>
      Raise (AttributeError "'bool' object has no attribute 'keys'")
  end.

Definition UPLOAD_FOLDER : string := "../uploads".

(** The module-level instance of line 13. *)
Definition cluster_generator : cluster_generator.ClusterGenerator :=
  cluster_generator.init "dbscan" (Q2Qc (4 # 10)) 1 "cosine".

(** Lines 56-62: save the uploads that carry a file name. *)
Fixpoint save_files (task_folder : string) (files : list string)
    (saved_paths : list string) : M (list string) :=
  match files with
  | [] => mret saved_paths
  | filename :: files' =>
      if bool_decide (filename ≠ "") then
        let filepath := os_path_join task_folder filename in
        _ ← emit (EvSave filepath);
        save_files task_folder files' (saved_paths ++ [filepath])%list
      else save_files task_folder files' saved_paths
  end.

(** Lines 73-102: the loop over the faces of one image. *)
Fixpoint faces_loop (task_id task_folder image_path image_name : string)
    (faces : list (gmap string pyval)) (all_faces : list (gmap string pyval))
    (face_counter : nat) : M (list (gmap string pyval)) :=
  match faces with
  | [] => mret all_faces
  | face_data :: faces' =>
      let face_id :=
        task_id +:+ "_img" +:+ pretty (length all_faces) +:+
        "_face" +:+ pretty face_counter in
      let boxed_image_filename := face_id +:+ "_boxed.jpg" in
      let boxed_image_path := os_path_join task_folder boxed_image_filename in
      boxed_image ← lift (getitem face_data "boxed_image");
      _ ← emit (EvImwrite boxed_image_path boxed_image);
      let original_relative :=
        os_path_join task_id (os_path_basename image_path) in
      let boxed_relative := os_path_join task_id boxed_image_filename in
      bbox ← lift (getitem face_data "bbox" ≫= tolist);
      det_score ← lift (getitem face_data "det_score");
      embedding ← lift (getitem face_data "embedding");
      let face_info : gmap string pyval := list_to_map [
        ("face_id", VStr face_id);
        ("original_image_path", VStr original_relative);
        ("original_image_name", VStr image_name);
        ("boxed_image_path", VStr boxed_relative);
        ("bbox", bbox);
        ("det_score", det_score);
        ("embedding", embedding)
      ] in
      faces_loop task_id task_folder image_path image_name faces'
        (all_faces ++ [face_info])%list (S face_counter)
  end.

(** Lines 136-143. *)
Fixpoint metadata_loop (all_faces : list (gmap string pyval))
    (faces_metadata : gmap ident (gmap string pyval))
  : result (gmap ident (gmap string pyval)) :=
  match all_faces with
  | [] => Ok faces_metadata
  | face :: all_faces' =>
      face_id ← getitem face "face_id";
      original_image ← getitem face "original_image_path";
      boxed_image ← getitem face "boxed_image_path";
      bbox ← getitem face "bbox";
      confidence ← getitem face "det_score";
      face_id ← hashable face_id;
      metadata_loop all_faces'
        (<[face_id := list_to_map [
             ("original_image", original_image);
             ("boxed_image", boxed_image);
             ("bbox", bbox);
             ("confidence", confidence)]]> faces_metadata)
  end.

Section with_libraries.
Context (sk_fit_predict : estimator → list (list Qc) → result (list Z)).
Context (cv2_imread : string → option image).
Context (app_get : image → list face_extractor.Face).

(** Lines 70-105: the loop over the saved images. *)
Fixpoint images_loop (task_id task_folder : string) (min_size : Z)
    (det_thresh : Qc) (saved_paths : list string)
    (all_faces : list (gmap string pyval)) : M (list (gmap string pyval)) :=
  match saved_paths with
  | [] => mret all_faces
  | image_path :: saved_paths' =>
      let image_name := os_path_basename image_path in
      all_faces ←
        faces_loop task_id task_folder image_path image_name
          (face_extractor.extract_faces_from_image_path cv2_imread app_get
             image_path min_size det_thresh)
          all_faces 0;
      images_loop task_id task_folder min_size det_thresh saved_paths' all_faces
  end.

(** The body of the [try] block of [process_images], with the request
    already parsed: the uploaded file names, [task_id], [min_size] and
    [det_thresh]. The result is the JSON payload and the status code. *)
Definition process_images_body (files : list string) (task_id : string)
    (min_size : Z) (det_thresh : Qc) : M (gmap string jval * Z) :=
  match files with
  | [] =>
      mret (<["success" := JBool false]>
            (<["error" := JStr "Файлы не найдены"]> ∅), 400)
  | _ =>
      let task_folder := os_path_join UPLOAD_FOLDER task_id in
      _ ← emit (EvMakedirs task_folder);
      saved_paths ← save_files task_folder files [];
      all_faces ←
        images_loop task_id task_folder min_size det_thresh saved_paths [];
      let total_faces := length all_faces in
      if bool_decide (total_faces = 0%nat) then
        mret (<["success" := JBool false]>
              (<["error" := JStr "Лица не обнаружены"]>
               (<["total_faces" := JInt 0]> ∅)), 200)
      else
        embeddings_array ←
          lift (mapM (λ face, getitem face "embedding") all_faces ≫= np_array);
        result ←
          cluster_generator.generate_clusters sk_fit_predict cluster_generator
            all_faces embeddings_array "face_id";
        clusters ← lift (getitem result "clusters");
        embeddings_dict ← lift (getitem result "embeddings");
        faces_metadata ← lift (metadata_loop all_faces ∅);
        ks ← lift (keys clusters);
        let unique_persons :=
          length (filter (λ k, k ≠ inl "noise") ks) in
        mret (<["success" := JBool true]>
              (<["task_id" := JStr task_id]>
               (<["clusters" := JField clusters]>
                (<["embeddings" := JField embeddings_dict]>
                 (<["faces_metadata" := JMeta faces_metadata]>
                  (<["total_faces" := JInt (Z.of_nat total_faces)]>
                   (<["unique_persons" := JInt (Z.of_nat unique_persons)]>
                    ∅)))))), 200)
  end.

Definition process_images (files : list string) (task_id : string)
    (min_size : Z) (det_thresh : Qc) : M (gmap string jval * Z) :=
  try_except (process_images_body files task_id min_size det_thresh)
    (λ e, mret (<["success" := JBool false]>
                (<["error" := JStr (str_exn e)]> ∅), 500)).

End with_libraries.

End process.

(** ** execute.py *)
Module execute.

(** The parsed command line. *)
Record Args : Type := {
  min_size : Z;
  det_thresh : Qc;
  device : Z;
  image_folder : string;
  output_folder : string;
  algorithm : string;
  eps : Qc;
  min_samples : Z;
  metric : string
}.

Section with_libraries.
Context (sk_fit_predict : estimator → list (list Qc) → result (list Z)).
Context (cv2_imread : string → option image).
Context (app_get : image → list face_extractor.Face).
Context (os_listdir : string → result (list string)).

(** [main] after [parse_args]. [exit()] raises [SystemExit]; a run that
    ends in [Raise e] for another [e] is a run that dies on the uncaught
    exception [e]. *)
Definition main (args : Args) : M () :=
  let cluster_gen :=
    cluster_generator.init (algorithm args) (eps args) (min_samples args)
      (metric args) in
  faces ←
    lift (face_extractor.extract_faces_from_folder cv2_imread app_get
            os_listdir (image_folder args) (min_size args) (det_thresh args));
  match faces with
  | [] => raise SystemExit
  | _ =>
      embeddings ←
        lift (mapM (λ f, getitem f "embedding") faces ≫= np_array);
      result ←
        cluster_generator.generate_clusters sk_fit_predict cluster_gen
          faces embeddings "original_image_path";
      _ ← lift (getitem result "celebrity_matches");
      mret ()
  end.

End with_libraries.

End execute.

(** ** Concrete libraries for running the model

    Stand-ins for the external libraries, used to evaluate the model on
    concrete inputs. *)
Module Fixtures.

(** Density clustering at radius zero: rows are neighbours when they are
    equal, a row with fewer than [min_pts] copies is noise, and clusters
    are numbered in order of first appearance. A ragged input is rejected,
    as scikit-learn's input validation does. *)
Fixpoint label_rows (min_pts : Z) (all : list (list Qc))
    (seen : list (list Qc)) (X : list (list Qc)) : list Z :=
  match X with
  | [] => []
  | r :: X' =>
      if bool_decide (Z.of_nat (length (filter (λ r', r' = r) all)) < min_pts)
      then -1 :: label_rows min_pts all seen X'
      else
        match list_find (λ r', r' = r) seen with
        | Some (j, _) => Z.of_nat j :: label_rows min_pts all seen X'
        | None =>
            Z.of_nat (length seen) ::
            label_rows min_pts all (seen ++ [r])%list X'
        end
  end.

Definition sk_fit_predict (clustering : estimator) (X : list (list Qc))
  : result (list Z) :=
  let min_pts :=
    match clustering with
    | DBSCAN _ min_samples _ => min_samples
    | HDBSCAN min_cluster_size _ => min_cluster_size
    end in
  match X with
  | [] => Raise (ValueError "Found array with 0 sample(s)")
  | r :: _ =>
      if bool_decide (Forall (λ r', length r' = length r) X)
      then Ok (label_rows min_pts X [] X)
      else Raise (ValueError "setting an array element with a sequence.")
  end.

Definition q (n : Z) (d : positive) : Qc := Q2Qc (n # d).

Definition alice : face_extractor.Face :=
  {| face_extractor.det_score := q 9 10;
     face_extractor.bbox := (q 10 1, q 20 1, q 110 1, q 140 1);
     face_extractor.kps := [];
     face_extractor.normed_embedding := [q 1 1; q 0 1] |}.

Definition bob : face_extractor.Face :=
  {| face_extractor.det_score := q 8 10;
     face_extractor.bbox := (q 200 1, q 20 1, q 300 1, q 150 1);
     face_extractor.kps := [];
     face_extractor.normed_embedding := [q 0 1; q 1 1] |}.

(** A detection whose box is 5 pixels wide. *)
Definition speck : face_extractor.Face :=
  {| face_extractor.det_score := q 9 10;
     face_extractor.bbox := (q 10 1, q 20 1, q 15 1, q 140 1);
     face_extractor.kps := [];
     face_extractor.normed_embedding := [q 1 1; q 0 1] |}.

(** Files ending in [.txt] do not decode. *)
Definition cv2_imread (path : string) : option image :=
  if endswith path ".txt" then None else Some (Decoded path).

Definition app_get (img : image) : list face_extractor.Face :=
  match img with
  | Decoded path =>
      let name := os_path_basename path in
      if String.eqb name "alice.jpg" then [alice]
      else if String.eqb name "alice2.jpg" then [alice]
      else if String.eqb name "bob.jpg" then [bob]
      else if String.eqb name "both.jpg" then [alice; bob]
      else if String.eqb name "speck.jpg" then [speck]
      else []
  | Rectangle _ _ _ _ _ => []
  end.

Definition os_listdir (folder : string) : result (list string) :=
  if String.eqb folder "Images/" then Ok ["alice.jpg"; "notes.md"; "BOB.JPG"]
  else if String.eqb folder "Empty/" then Ok []
  else Raise (OSError ("[Errno 2] No such file or directory: '" +:+ folder +:+ "'")).

Definition process_images :=
  process.process_images sk_fit_predict cv2_imread app_get.

(** Three face dictionaries keyed by ['face_id'], with their labels and
    embedding rows. *)
Definition faces : list (gmap string pyval) :=
  [ {["face_id" := VStr "a"]}; {["face_id" := VStr "b"]};
    {["face_id" := VStr "c"]} ].

Definition ids : list ident := [inl "a"; inl "b"; inl "c"].

Definition labels : list Z := [0; -1; 0].

Definition rows : list (list Qc) := [[q 1 1; q 0 1]; [q 0 1; q 1 1]; [q 1 1; q 0 1]].

Definition default_args : execute.Args :=
  {| execute.min_size := 30; execute.det_thresh := q 1 2;
     execute.device := -1; execute.image_folder := "Images/";
     execute.output_folder := "Faces/"; execute.algorithm := "dbscan";
     execute.eps := q 4 10; execute.min_samples := 2;
     execute.metric := "cosine" |}.

Definition kmeans_args : execute.Args :=
  {| execute.min_size := 30; execute.det_thresh := q 1 2;
     execute.device := -1; execute.image_folder := "Images/";
     execute.output_folder := "Faces/"; execute.algorithm := "kmeans";
     execute.eps := q 4 10; execute.min_samples := 2;
     execute.metric := "cosine" |}.

Definition main := execute.main sk_fit_predict cv2_imread app_get os_listdir.

End Fixtures.

(** ** Specification-level vocabulary *)
Module Spec.

(** The record identifier of a face: the value under [path_key], as the
    dictionary key it becomes. *)
Definition record_id (path_key : string) (face : gmap string pyval)
  : result ident :=
  getitem face path_key ≫= hashable.

(** The identifiers whose label resolves to the cluster [c], in input
    order. *)
Definition members_of (c : string) (ids : list ident) (labels : list Z)
  : list ident :=
  (filter (λ p, cluster_generator.cluster_name p.2 = c) (zip ids labels)).*1.

(** The grouping and the embedding table the loop builds from the
    positionally aligned identifiers, labels and rows. *)
Definition group (ids : list ident) (labels : list Z)
    (clusters : gmap string (list ident)) : gmap string (list ident) :=
  foldl (λ c p, cluster_generator.add_member
                  (cluster_generator.cluster_name p.2) p.1 c)
        clusters (zip ids labels).

Definition table (ids : list ident) (rows : list (list Qc))
    (embeddings_dict : gmap ident (list Qc)) : gmap ident (list Qc) :=
  foldl (λ d p, <[p.1 := p.2]> d) embeddings_dict (zip ids rows).

(** The member lists of [clusters] partition [ids]: none missing, none
    duplicated or foreign, none in two clusters. *)
Definition is_partition (ids : list ident)
    (clusters : gmap string (list ident)) : Prop :=
  (∀ id, id ∈ ids →
     ∃ c members, clusters !! c = Some members ∧ id ∈ members) ∧
  (∀ c members, clusters !! c = Some members →
     NoDup members ∧ ∀ id, id ∈ members → id ∈ ids) ∧
  (∀ c1 c2 members1 members2 id,
     clusters !! c1 = Some members1 → clusters !! c2 = Some members2 →
     id ∈ members1 → id ∈ members2 → c1 = c2).

(** [embeddings_dict] has exactly one entry per identifier, the row at
    the identifier's position. *)
Definition one_entry_each (ids : list ident) (rows : list (list Qc))
    (embeddings_dict : gmap ident (list Qc)) : Prop :=
  dom embeddings_dict = list_to_set ids ∧
  size embeddings_dict = length ids ∧
  (∀ k id, ids !! k = Some id → embeddings_dict !! id = rows !! k).

(** No call to the clustering library occurs in a log. *)
Definition no_fit (log : list event) : Prop :=
  ∀ clustering X, EvFit clustering X ∉ log.

(** The estimator [fit_predict] constructs for a supported algorithm. *)
Definition estimator_of (self : cluster_generator.ClusterGenerator)
  : estimator :=
  if bool_decide (cluster_generator.algorithm self = "dbscan") then
    DBSCAN (cluster_generator.eps self) (cluster_generator.min_samples self)
      (cluster_generator.metric self)
  else
    HDBSCAN (cluster_generator.min_samples self)
      (cluster_generator.metric self).

Definition supported (algorithm : string) : Prop :=
  algorithm = "dbscan" ∨ algorithm = "hdbscan".

(** A computation only appends to the log, and what it returns and
    appends does not depend on the log it starts from. *)
Definition writer {A} (m : M A) : Prop :=
  ∀ log, m log = ((m []).1, (log ++ (m []).2)%list).

(** The paths under which the uploads of a request are saved. *)
Definition saved_paths (task_id : string) (files : list string)
  : list string :=
  os_path_join (os_path_join process.UPLOAD_FOLDER task_id) <$>
    filter (λ filename, filename ≠ "") files.

(** The face records of a request: what the detector yields, image by
    image, for the saved uploads. *)
Definition batch_faces (cv2_imread : string → option image)
    (app_get : image → list face_extractor.Face) (task_id : string)
    (files : list string) (min_size : Z) (det_thresh : Qc)
  : list (gmap string pyval) :=
  saved_paths task_id files ≫=
    (λ image_path,
       face_extractor.extract_faces_from_image_path cv2_imread app_get
         image_path min_size det_thresh).

(** The payloads of the two early returns of [process_images]. *)
Definition no_files_payload : gmap string process.jval :=
  <["success" := process.JBool false]>
  (<["error" := process.JStr "Файлы не найдены"]> ∅).

Definition no_faces_payload : gmap string process.jval :=
  <["success" := process.JBool false]>
  (<["error" := process.JStr "Лица не обнаружены"]>
   (<["total_faces" := process.JInt 0]> ∅)).

Definition failure_payload (e : exn) : gmap string process.jval :=
  <["success" := process.JBool false]>
  (<["error" := process.JStr (str_exn e)]> ∅).

End Spec.

(** * Properties *)

Import cluster_generator Spec.
Local Open Scope list_scope.

Ltac msimpl :=
  unfold run, estimator_fit_predict, emit, lift, raise, try_except;
  unfold mbind, mret, M_bind, M_ret, result_bind, result_ret; simpl.

(** ** The effect monad *)

Lemma bind_Ok {A B} (m : M A) (f : A → M B) (log log' : list event) (b : B) :
  (m ≫= f) log = (Ok b, log') ↔
  ∃ a log1, m log = (Ok a, log1) ∧ f a log1 = (Ok b, log').
Proof.
  unfold mbind, M_bind. destruct (m log) as [[a|e] log1]; split.
  - intros Hf. by exists a, log1.
  - by intros (a' & log1' & [= <- <-] & Hf).
  - done.
  - by intros (a' & log1' & [=] & _).
Qed.

Lemma bind_run_Ok {A B} (m : M A) (f : A → M B) (log log1 : list event)
    (a : A) :
  m log = (Ok a, log1) → (m ≫= f) log = f a log1.
Proof. intros Hm. unfold mbind, M_bind. by rewrite Hm. Qed.

Lemma bind_run_Raise {A B} (m : M A) (f : A → M B) (log log1 : list event)
    (e : exn) :
  m log = (Raise e, log1) → (m ≫= f) log = (Raise e, log1).
Proof. intros Hm. unfold mbind, M_bind. by rewrite Hm. Qed.

Lemma writer_ret {A} (a : A) : writer (mret a : M A).
Proof. intros log. unfold mret, M_ret. simpl. by rewrite (right_id_L [] (++)). Qed.

Lemma writer_raise {A} (e : exn) : writer (raise e : M A).
Proof. intros log. unfold raise. simpl. by rewrite (right_id_L [] (++)). Qed.

Lemma writer_lift {A} (r : result A) : writer (lift r).
Proof. intros log. unfold lift. simpl. by rewrite (right_id_L [] (++)). Qed.

Lemma writer_emit (ev : event) : writer (emit ev).
Proof. intros log. reflexivity. Qed.

Lemma writer_bind {A B} (m : M A) (f : A → M B) :
  writer m → (∀ a, writer (f a)) → writer (m ≫= f).
Proof.
  intros Hm Hf log. unfold mbind, M_bind.
  rewrite (Hm log). destruct (m []) as [[a|e] log1]; simpl.
  - rewrite (Hf a (log ++ log1)), (Hf a log1). simpl.
    by rewrite (assoc_L (++)).
  - done.
Qed.

Lemma writer_try_except {A} (body : M A) (handler : exn → M A) :
  writer body → (∀ e, writer (handler e)) → writer (try_except body handler).
Proof.
  intros Hm Hf log. unfold try_except.
  rewrite (Hm log). destruct (body []) as [[a|e] log1]; simpl; [done|].
  destruct e; try done;
    (rewrite (Hf _ (log ++ log1)), (Hf _ log1); simpl;
     by rewrite (assoc_L (++))).
Qed.

Lemma writer_fst {A} (m : M A) (log : list event) :
  writer m → (m log).1 = (m []).1.
Proof. intros Hm. by rewrite (Hm log). Qed.

Create HintDb writer.
#[local] Hint Resolve writer_ret writer_raise writer_lift writer_emit : writer.

(** ** The Label Resolver *)

Lemma cluster_name_noise : cluster_name (-1) = "noise".
Proof. reflexivity. Qed.

Lemma cluster_name_person (n : Z) :
  n ≠ -1 → cluster_name n = "person_" +:+ pretty n.
Proof. intros Hn. unfold cluster_name. by rewrite bool_decide_eq_true_2. Qed.

Lemma cluster_name_inj (m n : Z) : cluster_name m = cluster_name n → m = n.
Proof.
  unfold cluster_name. repeat case_bool_decide; simpl; intros Heq.
  - injection Heq as Heq. by apply (inj pretty).
  - discriminate.
  - discriminate.
  - lia.
Qed.

(** ** The Result Assembler as a fold *)

Lemma add_member_lookup (name c : string) (path : ident)
    (clusters : gmap string (list ident)) :
  add_member name path clusters !! c =
  if decide (name = c) then Some (default [] (clusters !! c) ++ [path])
  else clusters !! c.
Proof.
  unfold add_member. case_bool_decide as Hdom.
  - apply not_elem_of_dom in Hdom. destruct (decide (name = c)) as [->|Hne].
    + by rewrite lookup_alter_eq, lookup_insert_eq, Hdom.
    + by rewrite lookup_alter_ne, lookup_insert_ne.
  - destruct (decide (name = c)) as [->|Hne].
    + rewrite lookup_alter_eq. destruct (clusters !! c) eqn:Hc; [done|].
      apply elem_of_dom in Hdom as [members Hsome]. congruence.
    + by rewrite lookup_alter_ne.
Qed.

Lemma members_of_cons (c : string) (id : ident) (l : Z)
    (ids : list ident) (ls : list Z) :
  members_of c (id :: ids) (l :: ls) =
  if decide (cluster_name l = c) then id :: members_of c ids ls
  else members_of c ids ls.
Proof.
  unfold members_of. simpl. rewrite filter_cons. simpl.
  by destruct (decide (cluster_name l = c)).
Qed.

Lemma group_lookup (c : string) (ids : list ident) (ls : list Z)
    (clusters : gmap string (list ident)) :
  group ids ls clusters !! c =
  if decide (members_of c ids ls = []) then clusters !! c
  else Some (default [] (clusters !! c) ++ members_of c ids ls).
Proof.
  revert ls clusters. induction ids as [|id ids IH]; intros [|l ls] clusters;
    try done.
  change (group (id :: ids) (l :: ls) clusters)
    with (group ids ls (add_member (cluster_name l) id clusters)).
  rewrite IH, members_of_cons, add_member_lookup.
  destruct (decide (cluster_name l = c)) as [Hc|Hc]; [|done].
  destruct (decide (id :: members_of c ids ls = [])) as [?|_]; [done|].
  simpl. case_decide as Hnil.
  - by rewrite Hnil.
  - by rewrite <-(assoc_L (++)).
Qed.

Lemma table_lookup_None (id : ident) (ids : list ident)
    (rows : list (list Qc)) (d : gmap ident (list Qc)) :
  id ∉ take (length rows) ids → table ids rows d !! id = d !! id.
Proof.
  revert rows d. induction ids as [|id' ids IH]; intros [|r rows] d Hnotin;
    try done.
  change (table (id' :: ids) (r :: rows) d)
    with (table ids rows (<[id' := r]> d)).
  simpl in Hnotin. apply not_elem_of_cons in Hnotin as [Hne Hnotin].
  rewrite IH by done. by rewrite lookup_insert_ne.
Qed.

Lemma table_lookup (k : nat) (id : ident) (ids : list ident)
    (rows : list (list Qc)) (d : gmap ident (list Qc)) :
  NoDup ids → length rows = length ids → ids !! k = Some id →
  table ids rows d !! id = rows !! k.
Proof.
  revert k rows d. induction ids as [|id' ids IH]; intros k [|r rows] d Hnd Hlen Hk;
    try done.
  change (table (id' :: ids) (r :: rows) d)
    with (table ids rows (<[id' := r]> d)).
  apply NoDup_cons in Hnd as [Hnotin Hnd]. destruct k as [|k]; simpl in *.
  - injection Hk as ->. rewrite table_lookup_None.
    + by rewrite lookup_insert_eq.
    + intros (i & Hi & _)%elem_of_take. apply Hnotin.
      by eapply list_elem_of_lookup_2.
  - apply IH; [done|lia|done].
Qed.

Lemma table_dom (ids : list ident) (rows : list (list Qc))
    (d : gmap ident (list Qc)) :
  length rows = length ids →
  dom (table ids rows d) = list_to_set ids ∪ dom d.
Proof.
  revert rows d. induction ids as [|id ids IH]; intros [|r rows] d Hlen;
    try done.
  - simpl. set_solver.
  - change (table (id :: ids) (r :: rows) d)
      with (table ids rows (<[id := r]> d)).
    rewrite IH by (simpl in Hlen; lia). rewrite dom_insert_L. set_solver.
Qed.

Lemma index_Ok {A} (a : list A) (i : nat) (x : A) :
  index a i = Ok x ↔ a !! i = Some x.
Proof. unfold index. destruct (a !! i); naive_solver. Qed.

(** The loop returns exactly when every face has a hashable identifier
    and the labels and rows reach as far as the faces do; its result is
    then the grouping and the table of the aligned sequences. *)
Lemma assemble_Ok (path_key : string) (labels : list Z)
    (embeddings : list (list Qc)) (faces : list (gmap string pyval)) (i : nat)
    (clusters clusters' : gmap string (list ident))
    (embeddings_dict embeddings_dict' : gmap ident (list Qc)) :
  assemble path_key labels embeddings i faces clusters embeddings_dict
    = Ok (clusters', embeddings_dict') ↔
  ∃ ids : list ident,
    Forall2 (λ face id, record_id path_key face = Ok id) faces ids ∧
    (length faces ≤ length (drop i labels))%nat ∧
    (length faces ≤ length (drop i embeddings))%nat ∧
    clusters' = group ids (drop i labels) clusters ∧
    embeddings_dict' = table ids (drop i embeddings) embeddings_dict.
Proof.
  revert i clusters embeddings_dict.
  induction faces as [|face faces IH]; intros i clusters embeddings_dict.
  - simpl. split.
    + intros [= <- <-]. exists []. repeat split; auto with lia.
    + intros (ids & ->%Forall2_nil_inv_l & _ & _ & -> & ->). done.
  - simpl. unfold record_id at 1.
    destruct (getitem face path_key) as [v|e] eqn:Hv; simpl.
    2:{ split; [done|]. intros (ids & Hids & _).
        apply Forall2_cons_inv_l in Hids as (id & ids' & Hid & _ & _).
        unfold record_id in Hid. by rewrite Hv in Hid. }
    destruct (index labels i) as [l|e] eqn:Hl; simpl.
    2:{ split; [done|]. intros (ids & _ & Hlen & _). exfalso.
        unfold index in Hl. destruct (labels !! i) eqn:Hi; [done|].
        apply lookup_ge_None in Hi. rewrite length_drop in Hlen.
        simpl in Hlen. lia. }
    destruct (index embeddings i) as [row|e] eqn:Hrow; simpl.
    2:{ split; [done|]. intros (ids & _ & _ & Hlen & _). exfalso.
        unfold index in Hrow. destruct (embeddings !! i) eqn:Hi; [done|].
        apply lookup_ge_None in Hi. rewrite length_drop in Hlen.
        simpl in Hlen. lia. }
    destruct (hashable v) as [id|e] eqn:Hid; simpl.
    2:{ split; [done|]. intros (ids & Hids & _).
        apply Forall2_cons_inv_l in Hids as (id & ids' & Hid' & _ & _).
        unfold record_id in Hid'. rewrite Hv in Hid'. simpl in Hid'.
        congruence. }
    apply index_Ok in Hl, Hrow.
    rewrite IH. rewrite (drop_S _ _ _ Hl), (drop_S _ _ _ Hrow).
    rewrite !length_drop.
    split.
    + intros (ids & Hids & Hlen1 & Hlen2 & -> & ->).
      exists (id :: ids). repeat split; simpl; rewrite ?length_drop; try lia.
      constructor; [|done]. unfold record_id. by rewrite Hv.
    + intros (ids & Hids & Hlen1 & Hlen2 & -> & ->).
      apply Forall2_cons_inv_l in Hids as (id' & ids' & Hid' & Hids & ->).
      unfold record_id in Hid'. rewrite Hv in Hid'. simpl in Hid'.
      assert (id' = id) as -> by congruence.
      exists ids'. simpl in *. rewrite ?length_drop in *.
      repeat split; try lia; done.
Qed.

Lemma elem_of_members_of (c : string) (id : ident) (ids : list ident)
    (ls : list Z) :
  id ∈ members_of c ids ls ↔
  ∃ (k : nat) (l : Z),
    ids !! k = Some id ∧ ls !! k = Some l ∧ cluster_name l = c.
Proof.
  revert ls. induction ids as [|id' ids IH]; intros [|l' ls].
  - split; [by intros ?%elem_of_nil|]. by intros (k & l & ? & _).
  - split; [by intros ?%elem_of_nil|]. by intros (k & l & ? & _).
  - split; [by intros ?%elem_of_nil|]. by intros (k & l & _ & ? & _).
  - rewrite members_of_cons. destruct (decide (cluster_name l' = c)) as [Hc|Hc].
    + rewrite elem_of_cons, IH. split.
      * intros [->|(k & l & ? & ? & ?)]; [by exists 0%nat, l'|].
        by exists (S k), l.
      * intros ([|k] & l & Hid & Hl & Hcl); simpl in *.
        -- left. congruence.
        -- right. by exists k, l.
    + rewrite IH. split.
      * intros (k & l & ? & ? & ?). by exists (S k), l.
      * intros ([|k] & l & Hid & Hl & Hcl); simpl in *.
        -- congruence.
        -- by exists k, l.
Qed.

Lemma members_of_sublist (c : string) (ids : list ident) (ls : list Z) :
  members_of c ids ls `sublist_of` ids.
Proof.
  revert ls. induction ids as [|id ids IH]; intros [|l ls].
  - done.
  - done.
  - apply sublist_nil_l.
  - rewrite members_of_cons. destruct (decide (cluster_name l = c)).
    + by apply sublist_skip.
    + by apply sublist_cons.
Qed.

(** What the assembled grouping holds under a cluster name. *)
Lemma assemble_clusters_lookup (path_key : string) (labels : list Z)
    (embeddings : list (list Qc)) (faces : list (gmap string pyval))
    (clusters : gmap string (list ident))
    (embeddings_dict : gmap ident (list Qc)) (ids : list ident) (c : string) :
  assemble path_key labels embeddings 0 faces ∅ ∅
    = Ok (clusters, embeddings_dict) →
  Forall2 (λ face id, record_id path_key face = Ok id) faces ids →
  clusters !! c =
  if decide (members_of c ids labels = []) then None
  else Some (members_of c ids labels).
Proof.
  intros (ids' & Hids' & _ & _ & -> & _)%assemble_Ok Hids.
  assert (ids' = ids) as ->.
  { clear -Hids Hids'. revert ids' Hids'.
    induction Hids as [|face id faces ids Hid _ IH]; intros ids' Hids'.
    - by apply Forall2_nil_inv_l in Hids'.
    - apply Forall2_cons_inv_l in Hids' as (id' & ids'' & Hid' & Hids' & ->).
      f_equal; [congruence|by apply IH]. }
  rewrite drop_0, group_lookup, lookup_empty. done.
Qed.

(** ** C1: the Label Resolver *)

(** C1, as stated, fails: the noise sentinel [-1] resolves to the name
    ["noise"], not to ["unclustered"]. *)
Lemma noise_sentinel_is_not_unclustered :
  cluster_name (-1) = "noise" ∧ cluster_name (-1) ≠ "unclustered".
Proof. split; [reflexivity|discriminate]. Qed.

(** C1, amended: the noise sentinel [-1] resolves to the reserved name
    ["noise"]; every other integer [n] resolves to ["person_"] followed by
    the decimal form of [n]; and in every run of the assembling loop the
    record at a position labelled [l] is a member of the bucket named
    [cluster_name l], so positions with equal labels share a bucket and
    the noise bucket is ["noise"] whatever other clusters exist. *)
Theorem label_resolver_policy :
  cluster_name (-1) = "noise" ∧
  (∀ n : Z, n ≠ -1 → cluster_name n = "person_" +:+ pretty n) ∧
  (∀ (path_key : string) (labels : list Z) (embeddings : list (list Qc))
     (faces : list (gmap string pyval))
     (clusters : gmap string (list ident))
     (embeddings_dict : gmap ident (list Qc)),
     assemble path_key labels embeddings 0 faces ∅ ∅
       = Ok (clusters, embeddings_dict) →
     ∀ (k : nat) (face : gmap string pyval) (l : Z),
       faces !! k = Some face → labels !! k = Some l →
       ∃ (id : ident) (members : list ident),
         record_id path_key face = Ok id ∧
         clusters !! cluster_name l = Some members ∧
         id ∈ members).
Proof.
  split; [apply cluster_name_noise|].
  split; [apply cluster_name_person|].
  intros path_key labels embeddings faces clusters embeddings_dict Hrun
    k face l Hface Hl.
  pose proof Hrun as (ids & Hids & _)%assemble_Ok.
  destruct (Forall2_lookup_l _ _ _ _ _ Hids Hface) as (id & Hid & Hrec).
  assert (id ∈ members_of (cluster_name l) ids labels) as Hmem.
  { apply elem_of_members_of. by exists k, l. }
  exists id, (members_of (cluster_name l) ids labels).
  split; [done|]. split; [|done].
  rewrite (assemble_clusters_lookup _ _ _ _ _ _ _ _ Hrun Hids).
  case_decide as Hnil; [|done].
  rewrite Hnil in Hmem. by apply elem_of_nil in Hmem.
Qed.

(** ** C2: the Result Assembler partitions the identifiers *)

(** C2: for face records with pairwise-distinct identifiers [ids], labels
    and rows of the same length, the loop returns; every identifier is a
    member of some cluster; a cluster's member list has no duplicate and
    holds input identifiers only; no identifier is in two clusters; and the
    embeddings mapping has exactly the identifiers as keys, one entry for
    each, holding the row at the identifier's position. *)
Theorem assemble_partition (path_key : string) (labels : list Z)
    (embeddings : list (list Qc)) (faces : list (gmap string pyval))
    (ids : list ident) :
  Forall2 (λ face id, record_id path_key face = Ok id) faces ids →
  NoDup ids →
  length labels = length faces →
  length embeddings = length faces →
  ∃ (clusters : gmap string (list ident))
    (embeddings_dict : gmap ident (list Qc)),
    assemble path_key labels embeddings 0 faces ∅ ∅
      = Ok (clusters, embeddings_dict) ∧
    is_partition ids clusters ∧
    one_entry_each ids embeddings embeddings_dict.
Proof.
  intros Hids Hnd Hlabels Hrows.
  pose proof (Forall2_length _ _ _ Hids) as Hlen.
  assert (assemble path_key labels embeddings 0 faces ∅ ∅
          = Ok (group ids labels ∅, table ids embeddings ∅)) as Hrun.
  { apply assemble_Ok. exists ids. rewrite !drop_0. repeat split; auto with lia. }
  exists (group ids labels ∅), (table ids embeddings ∅).
  split; [done|].
  assert (∀ c members, group ids labels ∅ !! c = Some members →
            members = members_of c ids labels) as Hlookup.
  { intros c members.
    rewrite (assemble_clusters_lookup _ _ _ _ _ _ _ c Hrun Hids).
    case_decide; congruence. }
  unfold is_partition, one_entry_each. repeat split.
  - intros id (k & Hk)%list_elem_of_lookup_1.
    destruct (lookup_lt_is_Some_2 labels k) as [l Hl].
    { apply lookup_lt_Some in Hk. lia. }
    assert (id ∈ members_of (cluster_name l) ids labels) as Hmem.
    { apply elem_of_members_of. by exists k, l. }
    exists (cluster_name l), (members_of (cluster_name l) ids labels).
    split; [|done].
    rewrite (assemble_clusters_lookup _ _ _ _ _ _ _ _ Hrun Hids).
    case_decide as Hnil; [|done].
    rewrite Hnil in Hmem. by apply elem_of_nil in Hmem.
  - apply Hlookup in H as ->.
    eapply sublist_NoDup; [done|]. apply members_of_sublist.
  - apply Hlookup in H as ->. intros id (k & l & Hk & _)%elem_of_members_of.
    by eapply list_elem_of_lookup_2.
  - intros c1 c2 members1 members2 id ->%Hlookup ->%Hlookup
      (k1 & l1 & Hk1 & Hl1 & <-)%elem_of_members_of
      (k2 & l2 & Hk2 & Hl2 & <-)%elem_of_members_of.
    assert (k1 = k2) as -> by (eapply NoDup_lookup; eauto).
    congruence.
  - rewrite table_dom by lia. rewrite dom_empty_L. set_solver.
  - rewrite <-size_dom, table_dom by lia. rewrite dom_empty_L, (right_id_L ∅ (∪)).
    by rewrite size_list_to_set.
  - intros k id Hk. apply table_lookup; [done|lia|done].
Qed.

Lemma assemble_partition_witness :
  Forall2 (λ face id, record_id "face_id" face = Ok id)
    Fixtures.faces Fixtures.ids ∧
  NoDup Fixtures.ids ∧
  ∃ (clusters : gmap string (list ident))
    (embeddings_dict : gmap ident (list Qc)),
    assemble "face_id" Fixtures.labels Fixtures.rows 0 Fixtures.faces ∅ ∅
      = Ok (clusters, embeddings_dict) ∧
    is_partition Fixtures.ids clusters ∧
    one_entry_each Fixtures.ids Fixtures.rows embeddings_dict.
Proof.
  assert (Forall2 (λ face id, record_id "face_id" face = Ok id)
            Fixtures.faces Fixtures.ids) as Hids.
  { repeat constructor. }
  assert (NoDup Fixtures.ids) as Hnd.
  { refine (bool_decide_unpack (NoDup Fixtures.ids) _). vm_compute. exact I. }
  split; [exact Hids|]. split; [exact Hnd|].
  apply (assemble_partition "face_id" Fixtures.labels Fixtures.rows
           Fixtures.faces Fixtures.ids Hids Hnd); reflexivity.
Defined.

(** ** The Cluster Engine *)

Section cluster_engine.
Context (sk_fit_predict : estimator → list (list Qc) → result (list Z)).

Lemma fit_predict_supported (self : ClusterGenerator)
    (embeddings : list (list Qc)) (log : list event) :
  supported (algorithm self) →
  fit_predict sk_fit_predict self embeddings log =
  (sk_fit_predict (estimator_of self) embeddings,
   log ++ [EvFit (estimator_of self) embeddings]).
Proof.
  intros Halg. unfold fit_predict, estimator_of.
  destruct Halg as [Halg|Halg]; rewrite Halg; by msimpl.
Qed.

Lemma fit_predict_unsupported (self : ClusterGenerator)
    (embeddings : list (list Qc)) (log : list event) :
  ¬ supported (algorithm self) →
  fit_predict sk_fit_predict self embeddings log =
  (Raise (ValueError ("Неизвестный алгоритм: " +:+ algorithm self)), log).
Proof.
  intros Halg. unfold fit_predict, supported in *.
  rewrite !bool_decide_eq_false_2 by tauto. by msimpl.
Qed.

Lemma writer_fit_predict (self : ClusterGenerator)
    (embeddings : list (list Qc)) :
  writer (fit_predict sk_fit_predict self embeddings).
Proof.
  unfold fit_predict, estimator_fit_predict.
  apply writer_bind; [|intros clustering; apply writer_bind; auto with writer].
  repeat case_bool_decide; auto with writer.
Qed.

Lemma writer_generate_clusters (self : ClusterGenerator)
    (faces : list (gmap string pyval)) (embeddings : list (list Qc))
    (path_key : string) :
  writer (generate_clusters sk_fit_predict self faces embeddings path_key).
Proof.
  unfold generate_clusters.
  apply writer_bind; [apply writer_fit_predict|]. intros labels.
  apply writer_bind; [auto with writer|]. intros [clusters embeddings_dict].
  auto with writer.
Qed.

(** When [generate_clusters] returns, the algorithm is a supported one,
    the library was called once on the embeddings as given, and the
    result is the dictionary of lines 51-55 around what the loop built
    from the library's labels. *)
Lemma generate_clusters_Ok (self : ClusterGenerator)
    (faces : list (gmap string pyval)) (embeddings : list (list Qc))
    (path_key : string) (log log' : list event) (r : gmap string field) :
  generate_clusters sk_fit_predict self faces embeddings path_key log
    = (Ok r, log') ↔
  ∃ labels clusters embeddings_dict,
    supported (algorithm self) ∧
    sk_fit_predict (estimator_of self) embeddings = Ok labels ∧
    assemble path_key labels embeddings 0 faces ∅ ∅
      = Ok (clusters, embeddings_dict) ∧
    log' = log ++ [EvFit (estimator_of self) embeddings] ∧
    r = <["success" := FBool true]>
        (<["clusters" := FClusters clusters]>
         (<["embeddings" := FEmbeddings embeddings_dict]> ∅)).
Proof.
  unfold generate_clusters. rewrite bind_Ok. split.
  - intros (labels & log1 & Hfit & Hrest).
    destruct (decide (supported (algorithm self))) as [Halg|Halg].
    2:{ by rewrite fit_predict_unsupported in Hfit. }
    rewrite fit_predict_supported in Hfit by done.
    injection Hfit as Hsk <-.
    apply bind_Ok in Hrest as ([clusters embeddings_dict] & log2 & Hasm & Hret).
    unfold lift in Hasm. injection Hasm as Hasm <-.
    unfold mret, M_ret in Hret. injection Hret as <- <-.
    by exists labels, clusters, embeddings_dict.
  - intros (labels & clusters & embeddings_dict & Halg & Hsk & Hasm & -> & ->).
    exists labels, (log ++ [EvFit (estimator_of self) embeddings]).
    rewrite fit_predict_supported by done. split; [by rewrite Hsk|].
    unfold lift, mbind, M_bind. by rewrite Hasm.
Qed.

End cluster_engine.

(** ** C4: embeddings of inconsistent length *)

(** C4, as stated, fails: on a ragged input [fit_predict] does call the
    clustering library (the call is in the log), and the failure is the
    library's own [ValueError]. *)
Lemma ragged_embeddings_reach_the_library :
  run (fit_predict Fixtures.sk_fit_predict
         (init "dbscan" (Fixtures.q 4 10) 2 "cosine")
         [[Fixtures.q 1 1; Fixtures.q 0 1]; [Fixtures.q 1 1]]) =
  (Raise (ValueError "setting an array element with a sequence."),
   [EvFit (DBSCAN (Fixtures.q 4 10) 2 "cosine")
      [[Fixtures.q 1 1; Fixtures.q 0 1]; [Fixtures.q 1 1]]]).
Proof. reflexivity. Qed.

(** C4, amended: [fit_predict] does not validate the dimensions of its
    input. For a supported algorithm it calls the library's [fit_predict]
    exactly once, on the embeddings as given (no vector is truncated or
    padded), and returns the library's labels or raises the library's
    exception, whatever the lengths of the vectors. *)
Theorem fit_predict_hands_embeddings_on
    (sk_fit_predict : estimator → list (list Qc) → result (list Z))
    (self : ClusterGenerator) (embeddings : list (list Qc)) :
  supported (algorithm self) →
  run (fit_predict sk_fit_predict self embeddings) =
  (sk_fit_predict (estimator_of self) embeddings,
   [EvFit (estimator_of self) embeddings]).
Proof. intros Halg. unfold run. by rewrite fit_predict_supported. Qed.

Lemma fit_predict_hands_embeddings_on_witness :
  supported (algorithm (init "hdbscan" (Fixtures.q 4 10) 2 "euclidean")) ∧
  run (fit_predict Fixtures.sk_fit_predict
         (init "hdbscan" (Fixtures.q 4 10) 2 "euclidean")
         [[Fixtures.q 1 1]; [Fixtures.q 1 1]; [Fixtures.q 3 1]]) =
  (Ok [0; 0; -1],
   [EvFit (HDBSCAN 2 "euclidean")
      [[Fixtures.q 1 1]; [Fixtures.q 1 1]; [Fixtures.q 3 1]]]).
Proof.
  split; [right; reflexivity|].
  apply (fit_predict_hands_embeddings_on Fixtures.sk_fit_predict
           (init "hdbscan" (Fixtures.q 4 10) 2 "euclidean")).
  right; reflexivity.
Defined.

(** ** C8: records and labels of different lengths *)

Lemma record_id_Ok (path_key : string) (face : gmap string pyval) (id : ident) :
  record_id path_key face = Ok id ↔
  ∃ v, getitem face path_key = Ok v ∧ hashable v = Ok id.
Proof.
  unfold record_id. destruct (getitem face path_key) as [v|e]; simpl.
  - split; [by exists v|]. by intros (v' & [= <-] & Hv).
  - split; [done|]. by intros (v' & [=] & _).
Qed.

Lemma assemble_too_short (path_key : string) (labels : list Z)
    (embeddings : list (list Qc)) (faces : list (gmap string pyval))
    (ids : list ident) (i : nat) (clusters : gmap string (list ident))
    (embeddings_dict : gmap ident (list Qc)) :
  Forall2 (λ face id, record_id path_key face = Ok id) faces ids →
  (length (drop i labels) < length faces)%nat ∨
  (length (drop i embeddings) < length faces)%nat →
  ∃ msg, assemble path_key labels embeddings i faces clusters embeddings_dict
           = Raise (IndexError msg).
Proof.
  intros Hids. revert i clusters embeddings_dict.
  induction Hids as [|face id faces ids Hid _ IH];
    intros i clusters embeddings_dict Hshort; simpl in *; [lia|].
  apply record_id_Ok in Hid as (v & -> & Hid). simpl.
  rewrite !length_drop in Hshort. unfold index.
  destruct (labels !! i) as [l|] eqn:Hl; simpl; [|by eexists].
  destruct (embeddings !! i) as [row|] eqn:Hrow; simpl; [|by eexists].
  rewrite Hid. simpl. apply IH. rewrite !length_drop.
  apply lookup_lt_Some in Hl, Hrow. lia.
Qed.

(** C8, as stated, fails: a label sequence (and an embedding array) longer
    than the records is accepted, and the labels beyond the last record
    are ignored. *)
Lemma longer_labels_are_accepted :
  length Fixtures.labels ≠ length (take 1 Fixtures.faces) ∧
  assemble "face_id" Fixtures.labels Fixtures.rows 0
    (take 1 Fixtures.faces) ∅ ∅ =
  Ok ({["person_0" := [inl "a"]]},
      {[inl "a" := [Fixtures.q 1 1; Fixtures.q 0 1]]}).
Proof. split; [discriminate|]. vm_compute. reflexivity. Qed.

(** C8, amended: the loop has no length precondition and no
    [LengthMismatchError]. When the labels or the embedding rows are fewer
    than the records it raises [IndexError]; when they are at least as
    many it returns the result built from the first [len(records)] labels
    and rows, and the remaining ones are ignored. *)
Theorem assemble_length_mismatch (path_key : string) (labels : list Z)
    (embeddings : list (list Qc)) (faces : list (gmap string pyval))
    (ids : list ident) :
  Forall2 (λ face id, record_id path_key face = Ok id) faces ids →
  ((length labels < length faces)%nat ∨
   (length embeddings < length faces)%nat →
   ∃ msg, assemble path_key labels embeddings 0 faces ∅ ∅
            = Raise (IndexError msg)) ∧
  ((length faces ≤ length labels)%nat →
   (length faces ≤ length embeddings)%nat →
   assemble path_key labels embeddings 0 faces ∅ ∅
     = Ok (group ids (take (length faces) labels) ∅,
           table ids (take (length faces) embeddings) ∅)).
Proof.
  intros Hids. split.
  - intros Hshort. eapply assemble_too_short; [done|]. by rewrite !drop_0.
  - intros Hlabels Hrows. apply assemble_Ok. exists ids.
    rewrite !drop_0. repeat split; [done..| |].
    + unfold group. rewrite (Forall2_length _ _ _ Hids).
      f_equal. apply zip_with_take_r.
    + unfold table. rewrite (Forall2_length _ _ _ Hids).
      f_equal. apply zip_with_take_r.
Qed.

Lemma assemble_length_mismatch_witness :
  Forall2 (λ face id, record_id "face_id" face = Ok id)
    Fixtures.faces Fixtures.ids ∧
  (∃ msg, assemble "face_id" [0; -1] (take 2 Fixtures.rows) 0
            Fixtures.faces ∅ ∅ = Raise (IndexError msg)) ∧
  assemble "face_id" [0; -1; 0; 7; 7] (Fixtures.rows ++ Fixtures.rows) 0
    Fixtures.faces ∅ ∅
  = Ok (group Fixtures.ids [0; -1; 0] ∅,
        table Fixtures.ids Fixtures.rows ∅).
Proof.
  assert (Forall2 (λ face id, record_id "face_id" face = Ok id)
            Fixtures.faces Fixtures.ids) as Hids.
  { repeat constructor. }
  split; [exact Hids|]. split.
  - apply (assemble_length_mismatch "face_id" [0; -1] (take 2 Fixtures.rows)
             Fixtures.faces Fixtures.ids Hids).
    left. simpl. lia.
  - apply (assemble_length_mismatch "face_id" [0; -1; 0; 7; 7]
             (Fixtures.rows ++ Fixtures.rows)
             Fixtures.faces Fixtures.ids Hids); simpl; lia.
Defined.

(** ** The Pipeline Orchestrator *)

Lemma save_files_run (task_folder : string) (files saved : list string)
    (log : list event) :
  process.save_files task_folder files saved log =
  (Ok (saved ++ (os_path_join task_folder <$>
                   filter (λ filename, filename ≠ "") files)),
   log ++ (EvSave <$> (os_path_join task_folder <$>
                         filter (λ filename, filename ≠ "") files))).
Proof.
  revert saved log. induction files as [|filename files IH]; intros saved log.
  - simpl. by rewrite !(right_id_L [] (++)).
  - simpl. rewrite filter_cons.
    destruct (decide (filename ≠ "")) as [Hname|Hname].
    + rewrite bool_decide_eq_true_2 by done. msimpl. rewrite IH.
      by rewrite <-!(assoc_L (++)).
    + rewrite bool_decide_eq_false_2 by done. apply IH.
Qed.

Lemma faces_loop_length (task_id task_folder image_path image_name : string)
    (faces all_faces all_faces' : list (gmap string pyval))
    (face_counter : nat) (log log' : list event) :
  process.faces_loop task_id task_folder image_path image_name faces
    all_faces face_counter log = (Ok all_faces', log') →
  length all_faces' = (length all_faces + length faces)%nat.
Proof.
  revert all_faces face_counter log.
  induction faces as [|face_data faces IH]; intros all_faces face_counter log.
  - intros [= <- <-]. simpl. lia.
  - simpl. intros Hrun.
    apply bind_Ok in Hrun as (boxed_image & log1 & _ & Hrun).
    apply bind_Ok in Hrun as ([] & log2 & _ & Hrun).
    apply bind_Ok in Hrun as (bbox & log3 & _ & Hrun).
    apply bind_Ok in Hrun as (det_score & log4 & _ & Hrun).
    apply bind_Ok in Hrun as (embedding & log5 & _ & Hrun).
    apply IH in Hrun. rewrite Hrun, length_app. simpl. lia.
Qed.

Lemma writer_faces_loop (task_id task_folder image_path image_name : string)
    (faces all_faces : list (gmap string pyval)) (face_counter : nat) :
  writer (process.faces_loop task_id task_folder image_path image_name faces
            all_faces face_counter).
Proof.
  revert all_faces face_counter.
  induction faces as [|face_data faces IH]; intros all_faces face_counter;
    simpl; [auto with writer|].
  repeat (apply writer_bind; [auto with writer|]; intros ?).
  apply IH.
Qed.

Section pipeline.
Context (sk_fit_predict : estimator → list (list Qc) → result (list Z)).
Context (cv2_imread : string → option image).
Context (app_get : image → list face_extractor.Face).

Notation extract := (face_extractor.extract_faces_from_image_path
                       cv2_imread app_get).
Notation images_loop := (process.images_loop cv2_imread app_get).
Notation process_images_body :=
  (process.process_images_body sk_fit_predict cv2_imread app_get).
Notation process_images :=
  (process.process_images sk_fit_predict cv2_imread app_get).

(** An image that yields no face leaves the loop's state as it is. *)
Lemma images_loop_skip (task_id task_folder : string) (min_size : Z)
    (det_thresh : Qc) (image_path : string) (paths : list string)
    (all_faces : list (gmap string pyval)) (log : list event) :
  extract image_path min_size det_thresh = [] →
  images_loop task_id task_folder min_size det_thresh (image_path :: paths)
    all_faces log =
  images_loop task_id task_folder min_size det_thresh paths all_faces log.
Proof. intros Hnone. simpl. by rewrite Hnone. Qed.

Lemma images_loop_app (task_id task_folder : string) (min_size : Z)
    (det_thresh : Qc) (paths1 paths2 : list string)
    (all_faces : list (gmap string pyval)) (log : list event) :
  images_loop task_id task_folder min_size det_thresh (paths1 ++ paths2)
    all_faces log =
  (images_loop task_id task_folder min_size det_thresh paths1 all_faces ≫=
   images_loop task_id task_folder min_size det_thresh paths2) log.
Proof.
  revert all_faces log. induction paths1 as [|p paths1 IH];
    intros all_faces log; simpl.
  - done.
  - unfold mbind, M_bind in *.
    destruct (process.faces_loop _ _ _ _ _ _ _ log) as [[all_faces'|e] log1];
      [apply IH|done].
Qed.

Lemma images_loop_length (task_id task_folder : string) (min_size : Z)
    (det_thresh : Qc) (paths : list string)
    (all_faces all_faces' : list (gmap string pyval)) (log log' : list event) :
  images_loop task_id task_folder min_size det_thresh paths all_faces log
    = (Ok all_faces', log') →
  length all_faces' =
  (length all_faces +
   length (paths ≫= (λ p, extract p min_size det_thresh)))%nat.
Proof.
  revert all_faces log. induction paths as [|p paths IH]; intros all_faces log.
  - intros [= <- <-]. simpl. lia.
  - rewrite bind_cons, length_app. simpl. intros Hrun.
    apply bind_Ok in Hrun as (all_faces1 & log1 & Hfaces & Hrun).
    apply faces_loop_length in Hfaces. apply IH in Hrun.
    rewrite Hrun, Hfaces. lia.
Qed.

Lemma images_loop_no_faces (task_id task_folder : string) (min_size : Z)
    (det_thresh : Qc) (paths : list string)
    (all_faces : list (gmap string pyval)) (log : list event) :
  paths ≫= (λ p, extract p min_size det_thresh) = [] →
  images_loop task_id task_folder min_size det_thresh paths all_faces log
  = (Ok all_faces, log).
Proof.
  induction paths as [|p paths IH]; [done|].
  rewrite bind_cons. intros [Hp Hpaths]%app_eq_nil.
  rewrite images_loop_skip by done. by apply IH.
Qed.

Lemma writer_images_loop (task_id task_folder : string) (min_size : Z)
    (det_thresh : Qc) (paths : list string)
    (all_faces : list (gmap string pyval)) :
  writer (images_loop task_id task_folder min_size det_thresh paths all_faces).
Proof.
  revert all_faces. induction paths as [|p paths IH]; intros all_faces; simpl.
  - auto with writer.
  - apply writer_bind; [apply writer_faces_loop|done].
Qed.

Notation batch := (batch_faces cv2_imread app_get).

(** The run of a request with at least one upload, up to the end of the
    detection loop. *)
Lemma process_images_body_ingest (files : list string) (task_id : string)
    (min_size : Z) (det_thresh : Qc) (log : list event) :
  files ≠ [] →
  ∃ rest : list (gmap string pyval) → M (gmap string process.jval * Z),
    process_images_body files task_id min_size det_thresh log =
    (images_loop task_id (os_path_join process.UPLOAD_FOLDER task_id)
       min_size det_thresh (saved_paths task_id files) [] ≫= rest)
      (log ++ EvMakedirs (os_path_join process.UPLOAD_FOLDER task_id)
           :: (EvSave <$> saved_paths task_id files)) ∧
    rest [] = mret (no_faces_payload, 200).
Proof.
  intros Hfiles. destruct files as [|file files]; [done|]. eexists. split.
  - unfold process.process_images_body.
    erewrite bind_run_Ok by reflexivity.
    erewrite bind_run_Ok by apply save_files_run.
    rewrite <-(assoc_L (++)). reflexivity.
  - reflexivity.
Qed.

Lemma no_fit_uploads (folder : string) (paths : list string) :
  no_fit (EvMakedirs folder :: (EvSave <$> paths)).
Proof.
  intros clustering X [?|Hin]%elem_of_cons; [done|].
  by apply list_elem_of_fmap in Hin as (path & ? & _).
Qed.

End pipeline.

(** ** C3: the empty batch *)

(** C3, as stated, fails for a request without uploads: no face record is
    produced, and the response is the 400 payload, which has no
    [total_faces] entry. *)
Lemma no_uploads_response_has_no_total_faces :
  batch_faces Fixtures.cv2_imread Fixtures.app_get "t1" [] 30
    (Fixtures.q 1 2) = [] ∧
  run (Fixtures.process_images [] "t1" 30 (Fixtures.q 1 2)) =
    (Ok (no_files_payload, 400), []) ∧
  no_files_payload !! "total_faces" = None.
Proof. repeat split. Qed.

Section short_circuit.
Context (sk_fit_predict : estimator → list (list Qc) → result (list Z)).
Context (cv2_imread : string → option image).
Context (app_get : image → list face_extractor.Face).

(** C3, amended: when no face record is produced across the request, the
    response has [success = false] and the clustering library is never
    called; for a request with at least one upload it is the "no faces"
    payload with [total_faces = 0], and for a request without uploads the
    400 payload, which carries no [total_faces]. *)
Theorem no_faces_short_circuit (files : list string) (task_id : string)
    (min_size : Z) (det_thresh : Qc) :
  batch_faces cv2_imread app_get task_id files min_size det_thresh = [] →
  ∃ (payload : gmap string process.jval) (status : Z) (log : list event),
    run (process.process_images sk_fit_predict cv2_imread app_get
           files task_id min_size det_thresh)
      = (Ok (payload, status), log) ∧
    payload !! "success" = Some (process.JBool false) ∧
    no_fit log ∧
    (files ≠ [] →
     payload = no_faces_payload ∧ status = 200 ∧
     payload !! "total_faces" = Some (process.JInt 0)) ∧
    (files = [] →
     payload = no_files_payload ∧ status = 400 ∧
     payload !! "total_faces" = None).
Proof.
  intros Hnone. destruct (decide (files = [])) as [->|Hfiles].
  - exists no_files_payload, 400, []. repeat split; try done.
    intros clustering X Hin. by apply elem_of_nil in Hin.
  - exists no_faces_payload, 200,
      (EvMakedirs (os_path_join process.UPLOAD_FOLDER task_id)
         :: (EvSave <$> saved_paths task_id files)).
    repeat split; try done; [|apply no_fit_uploads].
    unfold run, process.process_images, try_except.
    destruct (process_images_body_ingest sk_fit_predict cv2_imread app_get
                files task_id min_size det_thresh [] Hfiles)
      as (rest & -> & Hrest).
    erewrite bind_run_Ok by (by apply images_loop_no_faces).
    by rewrite Hrest.
Qed.

End short_circuit.

Lemma no_faces_short_circuit_witness :
  batch_faces Fixtures.cv2_imread Fixtures.app_get "t1"
    ["broken.txt"; "speck.jpg"; ""] 30 (Fixtures.q 1 2) = [] ∧
  ∃ (payload : gmap string process.jval) (status : Z) (log : list event),
    run (Fixtures.process_images ["broken.txt"; "speck.jpg"; ""] "t1" 30
           (Fixtures.q 1 2))
      = (Ok (payload, status), log) ∧
    payload !! "success" = Some (process.JBool false) ∧
    no_fit log ∧
    (["broken.txt"; "speck.jpg"; ""] ≠ [] →
     payload = no_faces_payload ∧ status = 200 ∧
     payload !! "total_faces" = Some (process.JInt 0)) ∧
    (["broken.txt"; "speck.jpg"; ""] = [] →
     payload = no_files_payload ∧ status = 400 ∧
     payload !! "total_faces" = None).
Proof.
  split; [reflexivity|].
  apply (no_faces_short_circuit Fixtures.sk_fit_predict Fixtures.cv2_imread
           Fixtures.app_get ["broken.txt"; "speck.jpg"; ""] "t1" 30
           (Fixtures.q 1 2)).
  reflexivity.
Defined.

(** ** C6: the summary counts *)

Lemma filter_inl_length (name : string) (l : list string) :
  length (filter (λ k : ident, k ≠ inl name) (inl <$> l)) =
  length (filter (λ s, s ≠ name) l).
Proof.
  induction l as [|s l IH]; [done|].
  rewrite fmap_cons, !filter_cons.
  destruct (decide (s ≠ name)) as [Hs|Hs].
  - rewrite decide_True by congruence. simpl. f_equal. apply IH.
  - rewrite decide_False by (intros Hne; apply Hs; congruence). apply IH.
Qed.

(** The comprehension of line 151 counts the cluster names other than
    ["noise"]. *)
Lemma unique_persons_count (clusters : gmap string (list ident)) :
  length (filter (λ k : ident, k ≠ inl "noise")
            (inl <$> (map_to_list clusters).*1)) =
  size (dom clusters ∖ {["noise"]}).
Proof.
  rewrite filter_inl_length.
  assert (dom clusters ∖ {["noise"]} =
          list_to_set (filter (λ s, s ≠ "noise") (map_to_list clusters).*1))
    as ->.
  { apply set_eq. intros s.
    rewrite elem_of_difference, elem_of_list_to_set, list_elem_of_filter.
    rewrite not_elem_of_singleton, dom_alt, elem_of_list_to_set. tauto. }
  rewrite size_list_to_set; [done|].
  apply NoDup_filter, NoDup_fst_map_to_list.
Qed.

Section summary.
Context (sk_fit_predict : estimator → list (list Qc) → result (list Z)).
Context (cv2_imread : string → option image).
Context (app_get : image → list face_extractor.Face).

(** C6: in every response with [success = true], [total_faces] is the
    number of face records the detector yielded for the request, and
    [unique_persons] is the number of distinct cluster ids in the
    [clusters] mapping other than the reserved noise id ["noise"]. *)
Theorem summary_counts (files : list string) (task_id : string)
    (min_size : Z) (det_thresh : Qc) (payload : gmap string process.jval)
    (status : Z) (log : list event) :
  run (process.process_images sk_fit_predict cv2_imread app_get
         files task_id min_size det_thresh)
    = (Ok (payload, status), log) →
  payload !! "success" = Some (process.JBool true) →
  ∃ clusters : gmap string (list ident),
    payload !! "clusters" = Some (process.JField (FClusters clusters)) ∧
    payload !! "total_faces" =
      Some (process.JInt (Z.of_nat (length
        (batch_faces cv2_imread app_get task_id files min_size det_thresh)))) ∧
    payload !! "unique_persons" =
      Some (process.JInt (Z.of_nat (size (dom clusters ∖ {["noise"]})))).
Proof.
  unfold run, process.process_images, try_except. intros Hrun Hsuccess.
  destruct (process.process_images_body _ _ _ _ _ _ _ [])
    as [[[payload' status']|e] log1] eqn:Hbody.
  2:{ destruct e; unfold mret, M_ret in Hrun; by simplify_eq. }
  simplify_eq.
  destruct files as [|file files].
  { injection Hbody as <- <- <-. done. }
  unfold process.process_images_body in Hbody.
  erewrite bind_run_Ok in Hbody by reflexivity.
  erewrite bind_run_Ok in Hbody by apply save_files_run.
  apply bind_Ok in Hbody as (all_faces & log2 & Himages & Hbody).
  apply images_loop_length in Himages.
  case_bool_decide as Htotal.
  { injection Hbody as <- <- <-. done. }
  apply bind_Ok in Hbody as (embeddings_array & log3 & _ & Hbody).
  apply bind_Ok in Hbody as (result & log4 & Hgen & Hbody).
  apply generate_clusters_Ok in Hgen
    as (labels & clusters & embeddings_dict & _ & _ & _ & _ & ->).
  apply bind_Ok in Hbody as (clusters' & log5 & [= <- <-] & Hbody).
  apply bind_Ok in Hbody as (embeddings' & log6 & [= <- <-] & Hbody).
  apply bind_Ok in Hbody as (faces_metadata & log7 & _ & Hbody).
  apply bind_Ok in Hbody as (ks & log8 & [= <- <-] & Hbody).
  injection Hbody as <- <- <-.
  exists clusters. split; [done|]. split.
  - rewrite Himages. done.
  - by rewrite <-unique_persons_count.
Qed.

End summary.

Lemma summary_counts_witness :
  ∃ (payload : gmap string process.jval) (log : list event),
    run (Fixtures.process_images ["alice.jpg"; "broken.txt"; "both.jpg"]
           "t1" 30 (Fixtures.q 1 2)) = (Ok (payload, 200), log) ∧
    payload !! "success" = Some (process.JBool true) ∧
    ∃ clusters : gmap string (list ident),
      payload !! "clusters" = Some (process.JField (FClusters clusters)) ∧
      payload !! "total_faces" =
        Some (process.JInt (Z.of_nat (length
          (batch_faces Fixtures.cv2_imread Fixtures.app_get "t1"
             ["alice.jpg"; "broken.txt"; "both.jpg"] 30 (Fixtures.q 1 2))))) ∧
      payload !! "unique_persons" =
        Some (process.JInt (Z.of_nat (size (dom clusters ∖ {["noise"]})))).
Proof.
  destruct (run (Fixtures.process_images
                   ["alice.jpg"; "broken.txt"; "both.jpg"] "t1" 30
                   (Fixtures.q 1 2)))
    as [[[payload status]|e] log] eqn:Hrun.
  - assert (status = 200 ∧ payload !! "success" = Some (process.JBool true))
      as [-> Hsuccess].
    { pose proof Hrun as Hvalue. vm_compute in Hvalue.
      injection Hvalue as <- <- <-. split; reflexivity. }
    exists payload, log. split; [reflexivity|]. split; [exact Hsuccess|].
    exact (summary_counts Fixtures.sk_fit_predict Fixtures.cv2_imread
             Fixtures.app_get ["alice.jpg"; "broken.txt"; "both.jpg"] "t1" 30
             (Fixtures.q 1 2) payload 200 log Hrun Hsuccess).
  - exfalso. vm_compute in Hrun. discriminate Hrun.
Defined.

(** ** C9: an image that cannot be loaded *)

Section skipped_image.
Context (sk_fit_predict : estimator → list (list Qc) → result (list Z)).
Context (cv2_imread : string → option image).
Context (app_get : image → list face_extractor.Face).

Lemma extract_unreadable (image_path : string) (min_size : Z)
    (det_thresh : Qc) :
  cv2_imread image_path = None →
  face_extractor.extract_faces_from_image_path cv2_imread app_get
    image_path min_size det_thresh = [].
Proof.
  intros Hnone. unfold face_extractor.extract_faces_from_image_path.
  by rewrite Hnone.
Qed.

Lemma saved_paths_app (task_id : string) (files1 files2 : list string) :
  saved_paths task_id (files1 ++ files2) =
  saved_paths task_id files1 ++ saved_paths task_id files2.
Proof. unfold saved_paths. by rewrite filter_app, fmap_app. Qed.

(** What follows the detection loop depends on the request only through
    the faces collected, and only appends to the log. *)
Lemma process_images_body_rest (task_id : string) (min_size : Z)
    (det_thresh : Qc) :
  ∃ rest : list (gmap string pyval) → M (gmap string process.jval * Z),
    (∀ all_faces, writer (rest all_faces)) ∧
    ∀ (files : list string) (log : list event),
      files ≠ [] →
      process.process_images_body sk_fit_predict cv2_imread app_get
        files task_id min_size det_thresh log =
      (process.images_loop cv2_imread app_get task_id
         (os_path_join process.UPLOAD_FOLDER task_id)
         min_size det_thresh (saved_paths task_id files) [] ≫= rest)
        (log ++ EvMakedirs (os_path_join process.UPLOAD_FOLDER task_id)
             :: (EvSave <$> saved_paths task_id files)).
Proof.
  eexists. split; cycle 1.
  - intros files log Hfiles. destruct files as [|file files]; [done|].
    unfold process.process_images_body.
    erewrite bind_run_Ok by reflexivity.
    erewrite bind_run_Ok by apply save_files_run.
    rewrite <-(assoc_L (++)). reflexivity.
  - intros all_faces. simpl. case_bool_decide; [auto with writer|].
    apply writer_bind; [auto with writer|]. intros embeddings_array.
    apply writer_bind; [apply writer_generate_clusters|]. intros result.
    repeat (apply writer_bind; [auto with writer|]; intros ?).
    auto with writer.
Qed.

Lemma process_images_fst (files : list string) (task_id : string)
    (min_size : Z) (det_thresh : Qc) (log : list event) :
  (process.process_images sk_fit_predict cv2_imread app_get
     files task_id min_size det_thresh log).1 =
  match (process.process_images_body sk_fit_predict cv2_imread app_get
           files task_id min_size det_thresh log).1 with
  | Ok response => Ok response
  | Raise SystemExit => Raise SystemExit
  | Raise e => Ok (failure_payload e, 500)
  end.
Proof.
  unfold process.process_images, try_except.
  destruct (process.process_images_body _ _ _ _ _ _ _ log) as [[r|e] log1];
    [done|]. by destruct e.
Qed.

(** C9: an upload that cannot be loaded contributes no face record, and
    the run goes on with the other images: the face records of the
    request, and the whole response (so [total_faces] too), are those of
    the request without that upload; when it was the only upload the
    response is the "no faces" payload. *)
Theorem unreadable_image_is_skipped (files1 files2 : list string)
    (bad task_id : string) (min_size : Z) (det_thresh : Qc) :
  cv2_imread
    (os_path_join (os_path_join process.UPLOAD_FOLDER task_id) bad) = None →
  face_extractor.extract_faces_from_image_path cv2_imread app_get
    (os_path_join (os_path_join process.UPLOAD_FOLDER task_id) bad)
    min_size det_thresh = [] ∧
  batch_faces cv2_imread app_get task_id (files1 ++ bad :: files2)
    min_size det_thresh =
  batch_faces cv2_imread app_get task_id (files1 ++ files2)
    min_size det_thresh ∧
  (files1 ++ files2 ≠ [] →
   (run (process.process_images sk_fit_predict cv2_imread app_get
           (files1 ++ bad :: files2) task_id min_size det_thresh)).1 =
   (run (process.process_images sk_fit_predict cv2_imread app_get
           (files1 ++ files2) task_id min_size det_thresh)).1) ∧
  (files1 ++ files2 = [] →
   (run (process.process_images sk_fit_predict cv2_imread app_get
           (files1 ++ bad :: files2) task_id min_size det_thresh)).1 =
   Ok (no_faces_payload, 200)).
Proof.
  intros Hbad.
  pose proof (extract_unreadable _ min_size det_thresh Hbad) as Hnone.
  assert (∀ all_faces log,
    process.images_loop cv2_imread app_get task_id
      (os_path_join process.UPLOAD_FOLDER task_id) min_size det_thresh
      (saved_paths task_id (files1 ++ bad :: files2)) all_faces log =
    process.images_loop cv2_imread app_get task_id
      (os_path_join process.UPLOAD_FOLDER task_id) min_size det_thresh
      (saved_paths task_id (files1 ++ files2)) all_faces log) as Hloop.
  { intros all_faces log. rewrite !saved_paths_app, !images_loop_app.
    unfold mbind, M_bind.
    destruct (process.images_loop _ _ _ _ _ _ _ all_faces log)
      as [[all_faces1|e] log1]; [|done].
    unfold saved_paths at 1. rewrite filter_cons.
    destruct (decide (bad ≠ "")); [|done].
    rewrite fmap_cons. by apply images_loop_skip. }
  assert (batch_faces cv2_imread app_get task_id (files1 ++ bad :: files2)
            min_size det_thresh =
          batch_faces cv2_imread app_get task_id (files1 ++ files2)
            min_size det_thresh) as Hbatch.
  { unfold batch_faces. rewrite !saved_paths_app, !bind_app. f_equal.
    unfold saved_paths at 1. rewrite filter_cons.
    destruct (decide (bad ≠ "")); [|done].
    rewrite fmap_cons, bind_cons. by rewrite Hnone. }
  split; [done|]. split; [done|]. split.
  - intros Hfiles. unfold run. rewrite !process_images_fst.
    destruct (process_images_body_rest task_id min_size det_thresh)
      as (rest & Hwriter & Hbody).
    rewrite !Hbody by (done || by destruct files1).
    assert (∀ paths, writer
      (process.images_loop cv2_imread app_get task_id
         (os_path_join process.UPLOAD_FOLDER task_id) min_size det_thresh
         paths [] ≫= rest)) as Hw.
    { intros paths. apply writer_bind; [apply writer_images_loop|done]. }
    rewrite (writer_fst _ _ (Hw _)), (writer_fst _ ([] ++ _) (Hw _)).
    unfold mbind, M_bind. by rewrite Hloop.
  - intros [-> ->]%app_eq_nil. simpl.
    destruct (no_faces_short_circuit sk_fit_predict cv2_imread app_get
                [bad] task_id min_size det_thresh)
      as (payload & status & log & Hrun & _ & _ & Hsome & _).
    { simpl in Hbatch. rewrite Hbatch. reflexivity. }
    destruct Hsome as (-> & -> & _); [done|]. by rewrite Hrun.
Qed.

End skipped_image.

Lemma unreadable_image_is_skipped_witness :
  Fixtures.cv2_imread
    (os_path_join (os_path_join process.UPLOAD_FOLDER "t1") "broken.txt")
    = None ∧
  (run (Fixtures.process_images ["alice.jpg"; "broken.txt"; "both.jpg"]
          "t1" 30 (Fixtures.q 1 2))).1 =
  (run (Fixtures.process_images ["alice.jpg"; "both.jpg"]
          "t1" 30 (Fixtures.q 1 2))).1.
Proof.
  split; [reflexivity|].
  apply (unreadable_image_is_skipped Fixtures.sk_fit_predict
           Fixtures.cv2_imread Fixtures.app_get ["alice.jpg"] ["both.jpg"]
           "broken.txt" "t1" 30 (Fixtures.q 1 2)); [reflexivity|discriminate].
Defined.

(** ** The command-line entry point *)

Section command_line.
Context (sk_fit_predict : estimator → list (list Qc) → result (list Z)).
Context (cv2_imread : string → option image).
Context (app_get : image → list face_extractor.Face).
Context (os_listdir : string → result (list string)).

(** [main] from the call of [generate_clusters] on, for a folder that
    yields faces whose embeddings stack into an array. *)
Lemma main_with_faces (args : execute.Args) (log : list event)
    (faces : list (gmap string pyval)) (embeddings : list (list Qc)) :
  face_extractor.extract_faces_from_folder cv2_imread app_get os_listdir
    (execute.image_folder args) (execute.min_size args)
    (execute.det_thresh args) = Ok faces →
  faces ≠ [] →
  mapM (λ f, getitem f "embedding") faces ≫= np_array = Ok embeddings →
  execute.main sk_fit_predict cv2_imread app_get os_listdir args log =
  (generate_clusters sk_fit_predict
     (init (execute.algorithm args) (execute.eps args)
        (execute.min_samples args) (execute.metric args))
     faces embeddings "original_image_path" ≫=
   (λ result, lift (getitem result "celebrity_matches") ≫= λ _, mret ()))
    log.
Proof.
  intros Hfaces Hsome Harray. unfold execute.main.
  erewrite bind_run_Ok by (unfold lift; rewrite Hfaces; reflexivity).
  destruct faces as [|face faces]; [done|].
  erewrite bind_run_Ok by (unfold lift; rewrite Harray; reflexivity).
  reflexivity.
Qed.

End command_line.

(** ** C10: the keys of the clustering result *)

Section result_keys.
Context (sk_fit_predict : estimator → list (list Qc) → result (list Z)).
Context (cv2_imread : string → option image).
Context (app_get : image → list face_extractor.Face).
Context (os_listdir : string → result (list string)).

(** C10: whenever [generate_clusters] returns, the keys of its result are
    exactly ["success"], ["clusters"] and ["embeddings"], and ["success"]
    holds [True]; so in a run of [main] that gets a non-empty face list
    and a result from [generate_clusters], the lookup of
    ["celebrity_matches"] raises [KeyError] and the run ends on it. *)
Theorem celebrity_matches_lookup_fails :
  (∀ (self : ClusterGenerator) (faces : list (gmap string pyval))
     (embeddings : list (list Qc)) (path_key : string)
     (log log' : list event) (r : gmap string field),
     generate_clusters sk_fit_predict self faces embeddings path_key log
       = (Ok r, log') →
     dom r = {["success"; "clusters"; "embeddings"]} ∧
     r !! "success" = Some (FBool true) ∧
     getitem r "celebrity_matches" = Raise (KeyError "celebrity_matches")) ∧
  (∀ (args : execute.Args) (log log' : list event)
     (faces : list (gmap string pyval)) (embeddings : list (list Qc))
     (r : gmap string field),
     face_extractor.extract_faces_from_folder cv2_imread app_get os_listdir
       (execute.image_folder args) (execute.min_size args)
       (execute.det_thresh args) = Ok faces →
     faces ≠ [] →
     mapM (λ f, getitem f "embedding") faces ≫= np_array = Ok embeddings →
     generate_clusters sk_fit_predict
       (init (execute.algorithm args) (execute.eps args)
          (execute.min_samples args) (execute.metric args))
       faces embeddings "original_image_path" log = (Ok r, log') →
     execute.main sk_fit_predict cv2_imread app_get os_listdir args log
       = (Raise (KeyError "celebrity_matches"), log')).
Proof.
  assert (∀ (self : ClusterGenerator) (faces : list (gmap string pyval))
            (embeddings : list (list Qc)) (path_key : string)
            (log log' : list event) (r : gmap string field),
            generate_clusters sk_fit_predict self faces embeddings path_key log
              = (Ok r, log') →
            dom r = {["success"; "clusters"; "embeddings"]} ∧
            r !! "success" = Some (FBool true) ∧
            getitem r "celebrity_matches"
              = Raise (KeyError "celebrity_matches")) as Hkeys.
  { intros self faces embeddings path_key log log' r
      (labels & clusters & embeddings_dict & _ & _ & _ & _ & ->)
        %generate_clusters_Ok.
    split; [|split; reflexivity].
    rewrite !dom_insert_L, dom_empty_L. set_solver. }
  split; [exact Hkeys|].
  intros args log log' faces embeddings r Hfaces Hsome Harray Hgen.
  rewrite (main_with_faces _ _ _ _ _ _ _ _ Hfaces Hsome Harray).
  erewrite bind_run_Ok by exact Hgen.
  destruct (Hkeys _ _ _ _ _ _ _ Hgen) as (_ & _ & Hlookup).
  unfold lift, mbind, M_bind. by rewrite Hlookup.
Qed.

End result_keys.

Lemma celebrity_matches_lookup_fails_witness :
  run (Fixtures.main Fixtures.default_args) =
  (Raise (KeyError "celebrity_matches"),
   [EvFit (DBSCAN (Fixtures.q 4 10) 2 "cosine")
      [[Fixtures.q 1 1; Fixtures.q 0 1]]]).
Proof.
  destruct (run (generate_clusters Fixtures.sk_fit_predict
                   (init "dbscan" (Fixtures.q 4 10) 2 "cosine")
                   (face_extractor.extract_faces_from_image_path
                      Fixtures.cv2_imread Fixtures.app_get
                      "Images/alice.jpg" 30 (Fixtures.q 1 2))
                   [[Fixtures.q 1 1; Fixtures.q 0 1]]
                   "original_image_path"))
    as [[r|e] log'] eqn:Hgen.
  - assert (log' = [EvFit (DBSCAN (Fixtures.q 4 10) 2 "cosine")
                      [[Fixtures.q 1 1; Fixtures.q 0 1]]]) as <-.
    { pose proof Hgen as Hvalue. vm_compute in Hvalue.
      injection Hvalue as _ <-. vm_compute. reflexivity. }
    apply (proj2 (celebrity_matches_lookup_fails Fixtures.sk_fit_predict
                    Fixtures.cv2_imread Fixtures.app_get Fixtures.os_listdir)
             Fixtures.default_args [] log'
             (face_extractor.extract_faces_from_image_path
                Fixtures.cv2_imread Fixtures.app_get
                "Images/alice.jpg" 30 (Fixtures.q 1 2))
             [[Fixtures.q 1 1; Fixtures.q 0 1]] r).
    + vm_compute. reflexivity.
    + vm_compute. discriminate.
    + vm_compute. reflexivity.
    + exact Hgen.
  - exfalso. vm_compute in Hgen. discriminate Hgen.
Defined.
